(** * Interview Preparation Assistant: a shallow embedding of [app.py]

    The script is a Streamlit page: it checks two API keys, draws a form and,
    when the form is submitted, calls a search provider (Serper) and a
    completion provider (Groq).  The embedding keeps the script's shape:

    - Python [str] values are [string]s holding their UTF-8 bytes;
    - values decoded from JSON are [pyval]s;
    - everything the script does to the outside (Streamlit calls, the HTTP
      POST, the completion request) is an [event] of a trace;
    - everything the outside does to the script (environment, form fields,
      provider answers) is read from a [world];
    - [st.stop()] and Python exceptions are outcomes of the monad [M]. *)

From Stdlib Require Import String Ascii List ZArith Bool Lia DecimalString.
From Stdlib Require Import QArith_base.
From Stdlib Require Import Floats.SpecFloat.
Import ListNotations.
Close Scope Q_scope.

Local Open Scope list_scope.
Local Open Scope string_scope.

(** ** Strings *)

Definition nl : string := String "010"%char EmptyString.

Definition is_empty (s : string) : bool :=
  match s with EmptyString => true | String _ _ => false end.

(** The number of newline characters of a string: one less than the number
    of its lines. *)
Fixpoint newlines (s : string) : nat :=
  match s with
  | EmptyString => 0
  | String c s' => (if Ascii.eqb c "010"%char then 1 else 0) + newlines s'
  end.

(** [x in s] of Python, as a proposition. *)
Definition Substring (x s : string) : Prop :=
  exists pre post, s = pre ++ x ++ post.

(** The code points Python's [str.isspace] accepts, by their UTF-8 bytes.
    [whitespace_at fwd l] is the number of bytes of the whitespace code
    point [l] starts with (0 when it starts with none).  With [fwd = false]
    the bytes of [l] come last byte first, as [py_strip] reads the end of a
    string. *)
Definition ascii_space (b : nat) : bool :=
  (((9 <=? b) && (b <=? 13)) || ((28 <=? b) && (b <=? 32)))%nat.

Definition space2 (b1 b2 : nat) : bool :=
  ((b1 =? 194) && ((b2 =? 133) || (b2 =? 160)))%nat.

Definition space3 (b1 b2 b3 : nat) : bool :=
  (((b1 =? 225) && (b2 =? 154) && (b3 =? 128))
   || ((b1 =? 226) && (b2 =? 128)
       && (((128 <=? b3) && (b3 <=? 138)) || (b3 =? 168) || (b3 =? 169) || (b3 =? 175)))
   || ((b1 =? 226) && (b2 =? 129) && (b3 =? 159))
   || ((b1 =? 227) && (b2 =? 128) && (b3 =? 128)))%nat.

Definition whitespace_at (fwd : bool) (l : list ascii) : nat :=
  match map nat_of_ascii l with
  | [] => 0
  | b1 :: bs =>
      if ascii_space b1 then 1 else
      match bs with
      | [] => 0
      | b2 :: bs' =>
          if (if fwd then space2 b1 b2 else space2 b2 b1) then 2 else
          match bs' with
          | [] => 0
          | b3 :: _ =>
              if (if fwd then space3 b1 b2 b3 else space3 b3 b2 b1) then 3 else 0
          end
      end
  end%nat.

Fixpoint drop_whitespace (fwd : bool) (fuel : nat) (l : list ascii) : list ascii :=
  match fuel with
  | O => l
  | S fuel' =>
      match whitespace_at fwd l with
      | O => l
      | n => drop_whitespace fwd fuel' (skipn n l)
      end
  end.

(** [s.strip()] *)
Definition py_strip (s : string) : string :=
  let l := list_ascii_of_string s in
  let l1 := drop_whitespace true (List.length l) l in
  let l2 := drop_whitespace false (List.length l1) (rev l1) in
  string_of_list_ascii (rev l2).

(** The code points of a string: every byte that is not a continuation byte
    (10xxxxxx) starts a new one. *)
Definition continuation (c : ascii) : bool :=
  let b := nat_of_ascii c in ((128 <=? b) && (b <=? 191))%nat.

Fixpoint py_chars_from (cur : string) (l : list ascii) : list string :=
  match l with
  | [] => [cur]
  | c :: l' =>
      if continuation c
      then py_chars_from (cur ++ String c EmptyString) l'
      else cur :: py_chars_from (String c EmptyString) l'
  end.

Definition py_chars (s : string) : list string :=
  match list_ascii_of_string s with
  | [] => []
  | c :: l => py_chars_from (String c EmptyString) l
  end.

(** ** Python values decoded from JSON *)

#[local] Set Warnings "-register-all".

Inductive pyval : Type :=
| PNone
| PBool (b : bool)
| PInt (n : Z)
| PFloat (f : spec_float)
| PStr (s : string)
| PList (l : list pyval)
| PDict (d : list (string * pyval)).

(** [bool(v)] *)
Definition truthy (v : pyval) : bool :=
  match v with
  | PNone => false
  | PBool b => b
  | PInt n => negb (n =? 0)%Z
  | PFloat (S754_zero _) => false
  | PFloat _ => true
  | PStr s => negb (is_empty s)
  | PList l => match l with [] => false | _ :: _ => true end
  | PDict d => match d with [] => false | _ :: _ => true end
  end.

(** [bool(v)] for what [os.getenv] returns. *)
Definition truthy_env (v : option string) : bool :=
  match v with None => false | Some s => negb (is_empty s) end.

Definition type_name (v : pyval) : string :=
  match v with
  | PNone => "NoneType"
  | PBool _ => "bool"
  | PInt _ => "int"
  | PFloat _ => "float"
  | PStr _ => "str"
  | PList _ => "list"
  | PDict _ => "dict"
  end.

Fixpoint dict_lookup (d : list (string * pyval)) (key : string) : option pyval :=
  match d with
  | [] => None
  | (k, v) :: d' => if (k =? key)%string then Some v else dict_lookup d' key
  end.

Definition of_env (v : option string) : pyval :=
  match v with None => PNone | Some s => PStr s end.

(** ** Exceptions, events and the world *)

Record exn : Type := Exn { exn_class : string; exn_str : string }.

Definition AttributeError (v : pyval) (attr : string) : exn :=
  Exn "AttributeError"
      ("'" ++ type_name v ++ "' object has no attribute '" ++ attr ++ "'").

Inductive event : Type :=
| StError (body : string)
| StWarning (body : string)
| StSetPageConfig (page_title page_icon layout : string)
| StTitle (body : string)
| StMarkdown (body : string)
| StDivider
| StForm (key : string)
| StTextInput (label placeholder : string)
| StFormSubmitButton (label : string)
| StSpinner (text : string)
| StSubheader (body : string)
| StSuccess (body : string)
| StDownloadButton (label data file_name mime : string)
| RequestsPost (url : string) (headers : list (string * pyval))
               (json : list (string * pyval))
| ChatCompletionsCreate (api_key : option string) (model : string)
                        (messages : list (list (string * string)))
                        (temperature : Q) (max_tokens : Z).

(** What [requests.post] gives back. [json_body] is what [response.json()]
    does: [inl msg] raises a decode error, [inr v] returns [v]. *)
Record response : Type := Response {
  status_code : Z;
  reason : string;
  url : string;
  json_body : string + pyval
}.

Inductive post_result : Type :=
| PostRaises (e : exn)
| PostReturns (r : response).

(** What [client.chat.completions.create] gives back. *)
Record chat_message : Type := ChatMessage { content : option string }.
Record chat_choice : Type := ChatChoice { message : chat_message }.
Record chat_completion : Type := ChatCompletion { choices : list chat_choice }.

Inductive create_result : Type :=
| CreateRaises (e : exn)
| CreateReturns (c : chat_completion).

Record world : Type := World {
  environ : string -> option string;
  text_value : string -> string;
  button_pressed : string -> bool;
  search_provider :
    string -> list (string * pyval) -> list (string * pyval) -> post_result;
  completion_provider :
    option string -> string -> list (list (string * string)) -> Q -> Z ->
    create_result
}.

(** ** The monad of the script *)

Inductive outcome (A : Type) : Type :=
| Returned (a : A)
| Stopped
| Raised (e : exn).

Arguments Returned {A} a.
Arguments Stopped {A}.
Arguments Raised {A} e.

Definition M (A : Type) : Type := world -> list event * outcome A.

Definition ret {A} (a : A) : M A := fun _ => ([], Returned a).

Definition bind {A B} (m : M A) (k : A -> M B) : M B :=
  fun w =>
    match m w with
    | (t1, Returned a) => let (t2, o) := k a w in ((t1 ++ t2)%list, o)
    | (t1, Stopped) => (t1, Stopped)
    | (t1, Raised e) => (t1, Raised e)
    end.

Definition emit (e : event) : M unit := fun _ => ([e], Returned tt).

Definition raise {A} (e : exn) : M A := fun _ => ([], Raised e).

(** [try: m  except Exception as e: h e].  [st.stop()] is no [Exception]. *)
Definition try_except {A} (m : M A) (h : exn -> M A) : M A :=
  fun w =>
    match m w with
    | (t1, Raised e) => let (t2, o) := h e w in ((t1 ++ t2)%list, o)
    | r => r
    end.

Declare Scope script_scope.
Delimit Scope script_scope with script.
Notation "x <- m ;; k" := (bind m (fun x => k))
  (at level 61, m at next level, right associativity) : script_scope.
Notation "m ;; k" := (bind m (fun _ => k))
  (at level 61, right associativity) : script_scope.
Local Open Scope script_scope.

Definition trace {A} (m : M A) (w : world) : list event := fst (m w).
Definition result {A} (m : M A) (w : world) : outcome A := snd (m w).

(** ** The script *)

Section Script.

(** [str(v)] of Python for a decoded value that is no [str]; an f-string
    field [{v}] is [v] itself when [v] is a [str]. *)
Variable py_str : pyval -> string.

Definition fstr (v : pyval) : string :=
  match v with PStr s => s | _ => py_str v end.

(** *** What the script calls *)

Definition os_getenv (name : string) : M (option string) :=
  fun w => ([], Returned (environ w name)).

Definition st_error (body : string) : M unit := emit (StError body).
Definition st_warning (body : string) : M unit := emit (StWarning body).
Definition st_markdown (body : string) : M unit := emit (StMarkdown body).
Definition st_subheader (body : string) : M unit := emit (StSubheader body).
Definition st_success (body : string) : M unit := emit (StSuccess body).
Definition st_spinner (text : string) : M unit := emit (StSpinner text).
Definition st_title (body : string) : M unit := emit (StTitle body).
Definition st_divider : M unit := emit StDivider.
Definition st_form (key : string) : M unit := emit (StForm key).

Definition st_set_page_config (page_title page_icon layout : string) : M unit :=
  emit (StSetPageConfig page_title page_icon layout).

Definition st_download_button (label data file_name mime : string) : M unit :=
  emit (StDownloadButton label data file_name mime).

Definition st_stop {A} : M A := fun _ => ([], Stopped).

Definition st_text_input (label placeholder : string) : M string :=
  fun w => ([StTextInput label placeholder], Returned (text_value w label)).

Definition st_form_submit_button (label : string) : M bool :=
  fun w => ([StFormSubmitButton label], Returned (button_pressed w label)).

Definition requests_post (url : string) (headers json : list (string * pyval))
  : M response :=
  fun w =>
    ([RequestsPost url headers json],
     match search_provider w url headers json with
     | PostRaises e => Raised e
     | PostReturns r => Returned r
     end).

(** [Response.raise_for_status] of the requests library: an [HTTPError] for
    a status from 400 to 599, nothing for any other status. *)
Definition raise_for_status (r : response) : M unit :=
  let code := NilZero.string_of_int (Z.to_int (status_code r)) in
  if ((400 <=? status_code r) && (status_code r <? 500))%Z then
    raise (Exn "HTTPError"
               (code ++ " Client Error: " ++ reason r ++ " for url: " ++ url r))
  else if ((500 <=? status_code r) && (status_code r <? 600))%Z then
    raise (Exn "HTTPError"
               (code ++ " Server Error: " ++ reason r ++ " for url: " ++ url r))
  else ret tt.

Definition response_json (r : response) : M pyval :=
  match json_body r with
  | inl msg => raise (Exn "JSONDecodeError" msg)
  | inr v => ret v
  end.

(** [v.get(key, default)] *)
Definition py_get (v : pyval) (key : string) (default : pyval) : M pyval :=
  match v with
  | PDict d =>
      ret (match dict_lookup d key with Some x => x | None => default end)
  | _ => raise (AttributeError v "get")
  end.

(** [v[:n]]; a dict refuses the slice as a key (a [TypeError] up to Python
    3.11, a [KeyError] from 3.12). *)
Definition py_slice (v : pyval) (n : nat) : M pyval :=
  match v with
  | PList l => ret (PList (firstn n l))
  | PStr s => ret (PStr (String.concat EmptyString (firstn n (py_chars s))))
  | PDict _ => raise (Exn "TypeError" "unhashable type: 'slice'")
  | _ => raise (Exn "TypeError"
                    ("'" ++ type_name v ++ "' object is not subscriptable"))
  end.

(** The items a [for] loop over [v] sees. *)
Definition py_iter (v : pyval) : M (list pyval) :=
  match v with
  | PList l => ret l
  | PStr s => ret (map PStr (py_chars s))
  | PDict d => ret (map (fun kv => PStr (fst kv)) d)
  | _ => raise (Exn "TypeError"
                    ("'" ++ type_name v ++ "' object is not iterable"))
  end.

Definition chat_completions_create (api_key : option string) (model : string)
    (messages : list (list (string * string))) (temperature : Q)
    (max_tokens : Z) : M chat_completion :=
  fun w =>
    ([ChatCompletionsCreate api_key model messages temperature max_tokens],
     match completion_provider w api_key model messages temperature max_tokens with
     | CreateRaises e => Raised e
     | CreateReturns c => Returned c
     end).

(** [l[0]] *)
Definition py_first {A} (l : list A) : M A :=
  match l with
  | [] => raise (Exn "IndexError" "list index out of range")
  | x :: _ => ret x
  end.

(** [c.strip()] where [c] may be [None] *)
Definition strip_method (c : option string) : M string :=
  match c with
  | None => raise (AttributeError PNone "strip")
  | Some s => ret (py_strip s)
  end.

(** *** [search_company_info] *)

(** A [try] block either falls through with a value or leaves the function
    with [return]. *)
Inductive flow (A R : Type) : Type :=
| Continue (a : A)
| Return (r : R).

Arguments Continue {A R} a.
Arguments Return {A R} r.

Definition bullet (title link snippet : pyval) : string :=
  "- [" ++ fstr title ++ "](" ++ fstr link ++ ") — " ++ fstr snippet.

(** The [for item in ...] loop, [summary] being the list appended to. *)
Fixpoint summary_loop (items : list pyval) (summary : list string)
  : M (list string) :=
  match items with
  | [] => ret summary
  | item :: rest =>
      title <- py_get item "title" (PStr EmptyString) ;;
      link <- py_get item "link" (PStr EmptyString) ;;
      snippet <- py_get item "snippet" (PStr EmptyString) ;;
      summary_loop rest (summary ++ [bullet title link snippet])%list
  end.

Definition search_query (company_name job_role : string) : string :=
  company_name ++ " " ++ job_role ++ " interview salary reviews company type".

Definition search_url : string := "https://google.serper.dev/search".

Definition search_headers (SERPER_API_KEY : option string)
  : list (string * pyval) :=
  [("X-API-KEY", of_env SERPER_API_KEY);
   ("Content-Type", PStr "application/json")].

Definition search_company_info (SERPER_API_KEY : option string)
    (company_name job_role : string) : M string :=
  let query := search_query company_name job_role in
  let url := search_url in
  let headers := search_headers SERPER_API_KEY in
  let data := [("q", PStr query)] in
  tried <- try_except
             (response <- requests_post url headers data ;;
              raise_for_status response ;;
              body <- response_json response ;;
              results <- py_get body "organic" (PList []) ;;
              ret (Continue results))
             (fun e =>
                st_error ("⚠️ Error fetching company info: " ++ exn_str e) ;;
                ret (Return EmptyString)) ;;
  match tried with
  | Return r => ret r
  | Continue results =>
      if negb (truthy results) then ret "No relevant info found." else
      sliced <- py_slice results 6 ;;
      items <- py_iter sliced ;;
      summary <- summary_loop items [] ;;
      ret (String.concat nl summary)
  end.

(** *** [generate_interview_guide] *)

Definition prompt_lines (company_name job_role facts : string) : list string :=
   [EmptyString;
    "    You are an expert interview coach and career mentor helping a candidate prepare for a **" ++ job_role ++ "** role at **" ++ company_name ++ "**.";
    EmptyString;
    "    Below are verified facts collected from online research:";
    "    " ++ facts;
    EmptyString;
    "    ### Task";
    "    Create a **comprehensive interview preparation guide** in **Markdown format** with **clear headings, bullet points, and clickable links**.";
    EmptyString;
    "    ### Content Requirements";
    "    Cover the following sections **in detail**:";
    EmptyString;
    "    ## 1. Company Overview";
    "    - What " ++ company_name ++ " does (products, services, domain)";
    "    - Business model and target customers";
    "    - Company culture, mission, and recent achievements (if available)";
    EmptyString;
    "    ## 2. Salary Expectations (India)";
    "    - Average salary range for **" ++ job_role ++ "** in India";
    "    - Entry-level, mid-level, and senior-level estimates";
    "    - Mention sources (e.g., Glassdoor, AmbitionBox, Levels.fyi) with **links**";
    EmptyString;
    "    ## 3. Company Locations";
    "    - Headquarters location";
    "    - Major offices in India and globally";
    "    - Remote / hybrid work availability (if known)";
    EmptyString;
    "    ## 4. Company Reviews & Work Culture";
    "    - Summary of employee reviews";
    "    - Pros and cons mentioned by employees";
    "    - Ratings from websites like:";
    "      - Glassdoor";
    "      - AmbitionBox";
    "      - Indeed  ";
    "      (Include **direct links**)";
    EmptyString;
    "    ## 5. Frequently Asked Interview Questions (Role-Specific)";
    "    - Technical questions related to **" ++ job_role ++ "**";
    "    - Behavioral questions (HR round)";
    "    - Managerial / scenario-based questions";
    "    - Coding / system design / case study questions (if applicable)";
    EmptyString;
    "    ## 6. Preparation Resources & Practice Websites";
    "    Provide **clickable links** under each category:";
    EmptyString;
    "    ### Technical Preparation";
    "    - Official documentation";
    "    - Tutorials, blogs, or courses";
    "    - GitHub repositories (if relevant)";
    EmptyString;
    "    ### Coding & Practice Platforms";
    "    - LeetCode";
    "    - HackerRank";
    "    - CodeChef";
    "    - GeeksforGeeks";
    EmptyString;
    "    ### Interview Experience & Company-Specific Prep";
    "    - Glassdoor interview experiences";
    "    - AmbitionBox interview questions";
    "    - Reddit / Medium posts (if relevant)";
    EmptyString;
    "    ## 7. Final Summary (Easy-to-Understand)";
    "    Conclude with **simple bullet points** covering:";
    "    - What to focus on before the interview";
    "    - How to prepare in the last 7 days";
    "    - Key tips to stand out in the interview";
    EmptyString;
    "    ### Style Guidelines";
    "    - Use clear Markdown headings (##, ###)";
    "    - Keep explanations simple and beginner-friendly";
    "    - Ensure all external references are **clickable links**";
    "    - Maintain a professional yet motivating tone";
    EmptyString;
    EmptyString].

Definition build_prompt (company_name job_role facts : string) : string :=
  String.concat nl (prompt_lines company_name job_role facts).

Definition guide_model : string := "llama-3.3-70b-versatile".

Definition generate_interview_guide (GROQ_API_KEY : option string)
    (company_name job_role facts : string) : M string :=
  let prompt := build_prompt company_name job_role facts in
  try_except
    (completion <- chat_completions_create GROQ_API_KEY guide_model
                     [[("role", "user"); ("content", prompt)]]
                     (6 # 10)%Q 1024%Z ;;
     choice <- py_first (choices completion) ;;
     strip_method (content (message choice)))
    (fun e =>
       st_error ("⚠️ Error generating guide: " ++ exn_str e) ;;
       ret EmptyString).

(** *** The page *)

Definition on_submit (GROQ_API_KEY SERPER_API_KEY : option string)
    (company_name job_role : string) : M unit :=
  (if is_empty company_name || is_empty job_role then
     st_warning "⚠️ Please enter both a company name and a job role." ;;
     st_stop
   else ret tt) ;;
  st_spinner "🔍 Searching the web for company details..." ;;
  facts <- search_company_info SERPER_API_KEY company_name job_role ;;
  (if is_empty facts then
     st_warning "No data found to generate guide." ;;
     st_stop
   else ret tt) ;;
  st_subheader "🌐 Web Insights" ;;
  st_markdown facts ;;
  st_spinner "🧠 Generating your AI-based interview preparation guide..." ;;
  guide <- generate_interview_guide GROQ_API_KEY company_name job_role facts ;;
  if negb (is_empty guide) then
    st_success "✅ Interview Preparation Guide Generated!" ;;
    st_subheader "📘 AI Interview Guide" ;;
    st_markdown guide ;;
    st_download_button "📥 Download Guide as Text" guide
      (company_name ++ "_" ++ job_role ++ "_Interview_Guide.txt") "text/plain"
  else ret tt.

Definition app : M unit :=
  GROQ_API_KEY <- os_getenv "GROQ_API_KEY" ;;
  SERPER_API_KEY <- os_getenv "SERPER_API_KEY" ;;
  (if negb (truthy_env GROQ_API_KEY) || negb (truthy_env SERPER_API_KEY) then
     st_error "❌ Missing API keys! Please check your .env file." ;;
     st_stop
   else ret tt) ;;
  st_set_page_config "Interview Prep AI" "🤖" "wide" ;;
  st_title "🤖 AI Interview Preparation Assistant" ;;
  st_markdown "This app used to know details about the Job and company reviews" ;;
  st_divider ;;
  st_form "input_form" ;;
  company_name <- st_text_input "🏢 Company Name" "e.g., Google" ;;
  job_role <- st_text_input "💼 Job Role" "e.g., Data Scientist" ;;
  submitted <- st_form_submit_button "Generate Interview Guide" ;;
  if submitted then on_submit GROQ_API_KEY SERPER_API_KEY company_name job_role
  else ret tt.

End Script.

(** ** Reading a run *)

(** What the page was given: the two keys, the two fields, the button. *)
Definition groq_key (w : world) : option string := environ w "GROQ_API_KEY".
Definition serper_key (w : world) : option string := environ w "SERPER_API_KEY".
Definition company_of (w : world) : string := text_value w "🏢 Company Name".
Definition role_of (w : world) : string := text_value w "💼 Job Role".
Definition submitted (w : world) : bool :=
  button_pressed w "Generate Interview Guide".

(** A secret is missing when it is absent or the empty string. *)
Definition missing (v : option string) : Prop :=
  v = None \/ v = Some EmptyString.

Definition keys_present (w : world) : Prop :=
  ~ missing (groq_key w) /\ ~ missing (serper_key w).

(** The answer of the search provider to the request of a pair. *)
Definition search_answer (w : world) (company_name job_role : string)
  : post_result :=
  search_provider w search_url (search_headers (serper_key w))
    [("q", PStr (search_query company_name job_role))].

(** The answer of the completion provider to a prompt. *)
Definition completion_answer (w : world) (prompt : string) : create_result :=
  completion_provider w (groq_key w) guide_model
    [[("role", "user"); ("content", prompt)]] (6 # 10)%Q 1024%Z.

(** The search call fails: [requests.post] raises, or the status is one
    [raise_for_status] rejects. *)
Definition search_call_fails (w : world) (company_name job_role : string)
  : Prop :=
  (exists e, search_answer w company_name job_role = PostRaises e)
  \/ (exists r, search_answer w company_name job_role = PostReturns r
                /\ (400 <= status_code r < 600)%Z).

(** The search call succeeds: a 2xx status and a body that decodes to an
    object, [organic] being what the body holds under that key ([None]: it
    has no such key). *)
Definition search_call_succeeds (w : world) (company_name job_role : string)
    (organic : option pyval) : Prop :=
  exists r d,
    search_answer w company_name job_role = PostReturns r
    /\ (200 <= status_code r < 300)%Z
    /\ json_body r = inr (PDict d)
    /\ dict_lookup d "organic" = organic.

Definition is_object (v : pyval) : Prop :=
  match v with PDict _ => True | _ => False end.

(** Kinds of events. *)
Definition is_post (e : event) : bool :=
  match e with RequestsPost _ _ _ => true | _ => false end.

Definition is_completion (e : event) : bool :=
  match e with ChatCompletionsCreate _ _ _ _ _ => true | _ => false end.

Definition is_network (e : event) : bool := is_post e || is_completion e.

Definition is_download (e : event) : bool :=
  match e with StDownloadButton _ _ _ _ => true | _ => false end.

(** What the page shows for a guide: the success message, the guide's
    heading and the download button. *)
Definition is_guide_output (e : event) : bool :=
  match e with
  | StSuccess _ => true
  | StSubheader body => (body =? "📘 AI Interview Guide")%string
  | StDownloadButton _ _ _ _ => true
  | _ => false
  end.

(** What the page draws before it looks at the button. *)
Definition page_events : list event :=
  [StSetPageConfig "Interview Prep AI" "🤖" "wide";
   StTitle "🤖 AI Interview Preparation Assistant";
   StMarkdown "This app used to know details about the Job and company reviews";
   StDivider;
   StForm "input_form";
   StTextInput "🏢 Company Name" "e.g., Google";
   StTextInput "💼 Job Role" "e.g., Data Scientist";
   StFormSubmitButton "Generate Interview Guide"].

(** What the page shows once it has a guide. *)
Definition guide_events (company_name job_role guide : string) : list event :=
  [StSuccess "✅ Interview Preparation Guide Generated!";
   StSubheader "📘 AI Interview Guide";
   StMarkdown guide;
   StDownloadButton "📥 Download Guide as Text" guide
     (company_name ++ "_" ++ job_role ++ "_Interview_Guide.txt") "text/plain"].

Definition search_event (w : world) (company_name job_role : string) : event :=
  RequestsPost search_url (search_headers (serper_key w))
    [("q", PStr (search_query company_name job_role))].

Definition completion_event (w : world) (prompt : string) : event :=
  ChatCompletionsCreate (groq_key w) guide_model
    [[("role", "user"); ("content", prompt)]] (6 # 10)%Q 1024%Z.

(** *** The digest as the specification words it *)

Section Digest.

Variable py_str : pyval -> string.

(** The text of a field of a result object, empty when the object has no
    such field. *)
Definition field_text (item : pyval) (key : string) : string :=
  match item with
  | PDict d =>
      match dict_lookup d key with
      | Some v => fstr py_str v
      | None => EmptyString
      end
  | _ => EmptyString
  end.

(** [- [title](link) — snippet] *)
Definition bullet_line (item : pyval) : string :=
  "- [" ++ field_text item "title" ++ "](" ++ field_text item "link"
        ++ ") — " ++ field_text item "snippet".

(** *** A request *)

(** The form was submitted with both fields non-empty, both keys present. *)
Definition request (w : world) : Prop :=
  keys_present w /\ submitted w = true
  /\ company_of w <> EmptyString /\ role_of w <> EmptyString.

(** The digest and the guide of a request. *)
Definition digest (w : world) : outcome string :=
  result (search_company_info py_str (serper_key w) (company_of w) (role_of w)) w.

Definition guide (w : world) (facts : string) : outcome string :=
  result (generate_interview_guide (groq_key w) (company_of w) (role_of w) facts) w.

End Digest.

(** ** Sample runs *)

(** A [str] for the values the samples format. *)
Definition sample_str (v : pyval) : string :=
  match v with
  | PNone => "None"
  | PBool true => "True"
  | PBool false => "False"
  | _ => "..."
  end.

Definition sample_world (env : string -> option string)
    (company_name job_role : string) (pressed : bool)
    (answer : post_result) (completion : create_result) : world :=
  World env
        (fun label =>
           if (label =? "🏢 Company Name")%string then company_name
           else if (label =? "💼 Job Role")%string then job_role
           else EmptyString)
        (fun _ => pressed)
        (fun _ _ _ => answer)
        (fun _ _ _ _ _ => completion).

Definition both_keys (name : string) : option string :=
  if (name =? "GROQ_API_KEY")%string then Some "gsk_test"
  else if (name =? "SERPER_API_KEY")%string then Some "serper_test"
  else None.

Definition only_groq_key (name : string) : option string :=
  if (name =? "GROQ_API_KEY")%string then Some "gsk_test" else None.

Definition hit (title link snippet : string) : pyval :=
  PDict [("title", PStr title); ("link", PStr link); ("snippet", PStr snippet)].

Definition answer_with (status : Z) (reason : string) (body : pyval)
  : post_result :=
  PostReturns (Response status reason search_url (inr body)).

Definition two_hits : pyval :=
  PDict [("organic",
          PList [hit "Acme careers" "https://acme.example/jobs" "Open roles";
                 PDict [("title", PStr "Acme reviews")]])].

Definition completion_of (text : option string) : create_result :=
  CreateReturns (ChatCompletion [ChatChoice (ChatMessage text)]).

Definition acme_world (answer : post_result) (completion : create_result)
  : world :=
  sample_world both_keys "Acme" "Engineer" true answer completion.

Definition guide_text : create_result := completion_of (Some "## Guide text").

(** Two results and a guide. *)
Definition acme_found : world :=
  acme_world (answer_with 200 "OK" two_hits) guide_text.

(** No result. *)
Definition acme_not_found : world :=
  acme_world (answer_with 200 "OK" (PDict [("organic", PList [])])) guide_text.

(** The provider cannot be reached. *)
Definition acme_unreachable : world :=
  acme_world (PostRaises (Exn "ConnectionError" "Connection refused"))
             guide_text.

(** The provider answers 300 with a body of results. *)
Definition acme_multiple_choices : world :=
  acme_world (answer_with 300 "Multiple Choices" two_hits) guide_text.

(** The completion provider fails. *)
Definition acme_no_guide : world :=
  acme_world (answer_with 200 "OK" two_hits)
             (CreateRaises (Exn "APIConnectionError" "Connection error.")).

(** The role was left empty. *)
Definition no_role : world :=
  sample_world both_keys "Acme" EmptyString true
               (answer_with 200 "OK" two_hits) guide_text.

(** Three spaces for a company, a tab for a role. *)
Definition blank_fields : world :=
  sample_world both_keys "   " (String "009"%char EmptyString) true
               (answer_with 200 "OK" two_hits) guide_text.

(** The search key is not set. *)
Definition no_search_key : world :=
  sample_world only_groq_key "Acme" "Engineer" true
               (answer_with 200 "OK" two_hits) guide_text.

Definition acme_digest : string :=
  String.concat nl
    ["- [Acme careers](https://acme.example/jobs) — Open roles";
     "- [Acme reviews]() — "].

(** ** Further readings of a run *)

(** [organic] holds something the loop cannot read: a true value that is no
    list, or a list with a non-object among its first six entries. *)
Definition unreadable (results : pyval) : Prop :=
  truthy results = true
  /\ match results with
     | PList items => Exists (fun item => ~ is_object item) (firstn 6 items)
     | _ => True
     end.

Definition is_error (e : event) : bool :=
  match e with StError _ => true | _ => false end.

(** The answer has a status [raise_for_status] lets pass and the body
    [body]. *)
Definition search_answer_body (w : world) (company_name job_role : string)
    (body : string + pyval) : Prop :=
  exists r,
    search_answer w company_name job_role = PostReturns r
    /\ ~ (400 <= status_code r < 600)%Z
    /\ json_body r = body.



(** More sample runs: a body that is a list, [organic] null, [organic] a
    list with a string in it, a completion without choices. *)
Definition acme_list_body : world :=
  acme_world (answer_with 200 "OK" (PList [])) guide_text.

Definition acme_null_results : world :=
  acme_world (answer_with 200 "OK" (PDict [("organic", PNone)])) guide_text.

Definition acme_string_result : world :=
  acme_world
    (answer_with 200 "OK"
       (PDict [("organic",
                PList [hit "Acme careers" "https://acme.example/jobs" "Open roles";
                       PStr "advert"])]))
    guide_text.

Definition acme_no_choices : world :=
  acme_world (answer_with 200 "OK" two_hits)
             (CreateReturns (ChatCompletion [])).


(** ** Properties *)

(** *** Strings *)

Lemma is_empty_true (s : string) : is_empty s = true <-> s = EmptyString.
Proof. destruct s; simpl; split; congruence. Qed.

Lemma is_empty_false (s : string) : is_empty s = false <-> s <> EmptyString.
Proof. destruct s; simpl; split; congruence. Qed.

Lemma append_assoc (a b c : string) : (a ++ b) ++ c = a ++ b ++ c.
Proof. induction a as [|x a IH]; simpl; [reflexivity | now rewrite IH]. Qed.

Lemma append_empty_r (a : string) : a ++ EmptyString = a.
Proof. induction a as [|x a IH]; simpl; [reflexivity | now rewrite IH]. Qed.

Lemma substring_refl (x : string) : Substring x x.
Proof. exists EmptyString, EmptyString. now rewrite append_empty_r. Qed.

Lemma substring_app_l (x a b : string) : Substring x a -> Substring x (a ++ b).
Proof.
  intros (pre & post & ->). exists pre, (post ++ b).
  now rewrite !append_assoc.
Qed.

Lemma substring_app_r (x a b : string) : Substring x b -> Substring x (a ++ b).
Proof.
  intros (pre & post & ->). exists (a ++ pre), post.
  now rewrite !append_assoc.
Qed.

Lemma substring_concat (x sep : string) (l : list string) :
  Exists (Substring x) l -> Substring x (String.concat sep l).
Proof.
  induction 1 as [e l He | e l Hl IH].
  - destruct l; simpl; [assumption | now apply substring_app_l].
  - destruct l as [|e' l]; simpl.
    + inversion Hl.
    + now apply substring_app_r, substring_app_r.
Qed.

Create HintDb substr.

#[local] Hint Resolve substring_refl substring_app_l substring_app_r : substr.

Lemma prompt_contains (company_name job_role facts : string) :
  let prompt := build_prompt company_name job_role facts in
  Substring company_name prompt /\ Substring job_role prompt
  /\ Substring facts prompt.
Proof.
  unfold build_prompt, prompt_lines.
  repeat split; apply substring_concat.
  - apply Exists_cons_tl, Exists_cons_hd. auto 8 with substr.
  - apply Exists_cons_tl, Exists_cons_hd. auto 8 with substr.
  - do 4 apply Exists_cons_tl. apply Exists_cons_hd. auto with substr.
Qed.

Lemma newlines_app (a b : string) :
  newlines (a ++ b) = (newlines a + newlines b)%nat.
Proof.
  induction a as [|c a IH]; simpl; [reflexivity | rewrite IH; lia].
Qed.

(** Lines that hold no newline, joined by newlines, are that many lines. *)
Lemma newlines_concat (lines : list string) :
  Forall (fun line => newlines line = 0%nat) lines ->
  lines <> [] ->
  S (newlines (String.concat nl lines)) = List.length lines.
Proof.
  induction 1 as [|line rest Hline Hrest IH]; intros Hne; [congruence |].
  destruct rest as [|line' rest].
  - simpl. now rewrite Hline.
  - change (String.concat nl (line :: line' :: rest))
      with (line ++ nl ++ String.concat nl (line' :: rest)).
    rewrite !newlines_app, Hline.
    change (newlines nl) with 1%nat.
    simpl List.length in *. rewrite <- IH by discriminate. lia.
Qed.

(** *** Runs of the two functions *)

Section Runs.

Variable py_str : pyval -> string.

Lemma bullet_of_object (d : list (string * pyval)) :
  bullet py_str
    (match dict_lookup d "title" with Some x => x | None => PStr EmptyString end)
    (match dict_lookup d "link" with Some x => x | None => PStr EmptyString end)
    (match dict_lookup d "snippet" with Some x => x | None => PStr EmptyString end)
  = bullet_line py_str (PDict d).
Proof.
  unfold bullet, bullet_line, field_text.
  destruct (dict_lookup d "title"), (dict_lookup d "link"),
    (dict_lookup d "snippet"); reflexivity.
Qed.

(** Over result objects the loop appends one bullet per item, in order. *)
Lemma summary_loop_objects (items : list pyval) :
  Forall is_object items ->
  forall (summary : list string) (w : world),
    summary_loop py_str items summary w
    = ([], Returned (summary ++ map (bullet_line py_str) items)%list).
Proof.
  induction 1 as [|item rest Hitem _ IH]; intros summary w; simpl.
  - now rewrite app_nil_r.
  - destruct item; try contradiction.
    unfold bind, py_get, ret. simpl.
    rewrite IH, bullet_of_object, <- app_assoc. reflexivity.
Qed.

(** The loop itself shows and sends nothing. *)
Lemma summary_loop_silent (items : list pyval) :
  forall (summary : list string) (w : world),
    fst (summary_loop py_str items summary w) = [].
Proof.
  induction items as [|item rest IH]; intros summary w; simpl.
  - reflexivity.
  - destruct item; unfold bind, py_get, ret, raise; simpl; try reflexivity.
    match goal with
    | |- context [summary_loop py_str rest ?s w] =>
        specialize (IH s w); destruct (summary_loop py_str rest s w)
    end.
    simpl in IH. now subst.
Qed.

(** Every run of [search_company_info] posts once; it then either ends
    quietly, or reports an error and returns the empty string. *)
Lemma search_shape (w : world) (company_name job_role : string) :
  let run := search_company_info py_str (serper_key w) company_name job_role w in
  (exists o, run = ([search_event w company_name job_role], o))
  \/ (exists e,
        run = ([search_event w company_name job_role;
                StError ("⚠️ Error fetching company info: " ++ exn_str e)],
               Returned EmptyString)).
Proof.
  unfold search_company_info, search_event, bind, try_except, requests_post.
  destruct (search_provider _ _ _ _) as [e | r]; [right; exists e; reflexivity |].
  unfold raise_for_status, raise, ret.
  destruct ((400 <=? _) && _)%Z; [right; eexists; reflexivity |].
  destruct ((500 <=? _) && _)%Z; [right; eexists; reflexivity |].
  unfold response_json, raise, ret.
  destruct (json_body r) as [msg | body]; [right; eexists; reflexivity |].
  unfold py_get, raise, ret.
  destruct body; try (right; eexists; reflexivity).
  left. simpl.
  destruct (negb (truthy _)); [eexists; reflexivity |].
  unfold py_slice, py_iter, raise, ret.
  match goal with
  | |- context [match ?x with PNone => _ | _ => _ end] =>
      destruct x; simpl; try (eexists; reflexivity)
  end.
  all: match goal with
       | |- context [summary_loop py_str ?items ?s ?w'] =>
           pose proof (summary_loop_silent items s w') as Hs;
           destruct (summary_loop py_str items s w') as [t [a | | e]];
           simpl in Hs; subst; eexists; reflexivity
       end.
Qed.

Lemma raise_for_status_passes (r : response) (w : world) :
  ~ (400 <= status_code r < 600)%Z ->
  raise_for_status r w = ([], Returned tt).
Proof.
  intros Hs. unfold raise_for_status.
  destruct (Z.leb_spec 400 (status_code r)), (Z.ltb_spec (status_code r) 500),
    (Z.leb_spec 500 (status_code r)), (Z.ltb_spec (status_code r) 600);
    simpl; try reflexivity; lia.
Qed.

Lemma raise_for_status_rejects (r : response) (w : world) :
  (400 <= status_code r < 600)%Z ->
  exists e, raise_for_status r w = ([], Raised e).
Proof.
  intros Hs. unfold raise_for_status.
  destruct (Z.leb_spec 400 (status_code r)), (Z.ltb_spec (status_code r) 500),
    (Z.leb_spec 500 (status_code r)), (Z.ltb_spec (status_code r) 600);
    simpl; try (eexists; reflexivity); lia.
Qed.

(** A failed search call: one post, one error message, the empty string. *)
Lemma search_fails_run (w : world) (company_name job_role : string) :
  search_call_fails w company_name job_role ->
  exists e,
    search_company_info py_str (serper_key w) company_name job_role w
    = ([search_event w company_name job_role;
        StError ("⚠️ Error fetching company info: " ++ exn_str e)],
       Returned EmptyString).
Proof.
  unfold search_call_fails, search_answer.
  intros [[e He] | [r [Hr Hs]]];
    unfold search_company_info, search_event, bind, try_except, requests_post.
  - rewrite He. exists e. reflexivity.
  - rewrite Hr. destruct (raise_for_status_rejects r w Hs) as [e ->].
    exists e. reflexivity.
Qed.

(** A search call that succeeds: the post, then the run after the [try]
    block. *)
Lemma search_succeeds_run (w : world) (company_name job_role : string)
    (organic : option pyval) :
  search_call_succeeds w company_name job_role organic ->
  search_company_info py_str (serper_key w) company_name job_role w
  = let results := match organic with Some x => x | None => PList [] end in
    let (t, o) :=
      (if negb (truthy results) then ret "No relevant info found." else
       sliced <- py_slice results 6 ;;
       items <- py_iter sliced ;;
       summary <- summary_loop py_str items [] ;;
       ret (String.concat nl summary)) w in
    (search_event w company_name job_role :: t, o).
Proof.
  unfold search_call_succeeds, search_answer.
  intros (r & d & Hr & Hs & Hb & Ho).
  unfold search_company_info, search_event, bind at 1 2 3 4 5, try_except,
    requests_post.
  rewrite Hr, raise_for_status_passes by lia.
  unfold response_json. rewrite Hb.
  unfold py_get, ret at 1 2. simpl. rewrite Ho. reflexivity.
Qed.

(** *** The digest *)

(** C4: for every pair of a company name and a job role (the non-empty ones
    among them), [search_company_info] issues exactly one network call, a
    post to the search provider, whose query is the company, a space, the
    role, a space and the words "interview salary reviews company type". *)
Theorem search_issues_one_call (w : world) (company_name job_role : string) :
  filter is_network
    (trace (search_company_info py_str (serper_key w) company_name job_role) w)
  = [RequestsPost "https://google.serper.dev/search"
       (search_headers (serper_key w))
       [("q", PStr (company_name ++ " " ++ job_role
                      ++ " interview salary reviews company type"))]].
Proof.
  unfold trace.
  destruct (search_shape w company_name job_role) as [[o ->] | [e ->]];
    reflexivity.
Qed.

(** C2: when the search succeeds and [organic] is a list of N >= 1 result
    objects, the digest is the first min(N, 6) of them, in the provider's
    order, one line [- [title](link) — snippet] each, joined by newlines; a
    field a result object does not have reads as the empty string.  When no
    field brings a newline of its own, the digest is min(N, 6) lines of
    text. *)
Theorem digest_of_results (w : world) (company_name job_role : string)
    (items : list pyval) :
  search_call_succeeds w company_name job_role (Some (PList items)) ->
  (1 <= List.length items)%nat ->
  Forall is_object (firstn 6 items) ->
  let lines := map (bullet_line py_str) (firstn 6 items) in
  result (search_company_info py_str (serper_key w) company_name job_role) w
  = Returned (String.concat nl lines)
  /\ List.length lines = Nat.min (List.length items) 6
  /\ (forall i, (i < Nat.min (List.length items) 6)%nat ->
        nth_error lines i = option_map (bullet_line py_str) (nth_error items i))
  /\ (forall item key d,
        item = PDict d -> dict_lookup d key = None ->
        field_text py_str item key = EmptyString)
  /\ (Forall (fun line => newlines line = 0%nat) lines ->
      S (newlines (String.concat nl lines)) = Nat.min (List.length items) 6).
Proof.
  intros Hok Hn Hobj lines.
  assert (Hlen : List.length lines = Nat.min (List.length items) 6)
    by (unfold lines; rewrite length_map, length_firstn; lia).
  repeat split; [| exact Hlen | | |].
  - unfold result. rewrite (search_succeeds_run _ _ _ _ Hok).
    assert (Ht : truthy (PList items) = true)
      by (destruct items; [simpl in Hn; lia | reflexivity]).
    cbv beta zeta. rewrite Ht. cbv [negb].
    unfold py_slice, py_iter, bind, ret.
    rewrite (summary_loop_objects _ Hobj). reflexivity.
  - intros i Hi. unfold lines.
    rewrite nth_error_map, nth_error_firstn.
    destruct (Nat.ltb_spec i 6); [reflexivity | lia].
  - intros item key d -> Hd. unfold field_text. now rewrite Hd.
  - intros Hflat. rewrite <- Hlen. apply newlines_concat; [exact Hflat |].
    intros Hnil. rewrite Hnil in Hlen. simpl in Hlen. lia.
Qed.

(** C3: when the search succeeds and [organic] is the empty list, or the
    body has no [organic], the digest is the sentinel "No relevant info
    found."; it differs from the empty string a failed search returns. *)
Theorem digest_of_no_results (w : world) (company_name job_role : string)
    (organic : option pyval) :
  search_call_succeeds w company_name job_role organic ->
  organic = Some (PList []) \/ organic = None ->
  result (search_company_info py_str (serper_key w) company_name job_role) w
  = Returned "No relevant info found."
  /\ forall w' company_name' job_role',
       search_call_fails w' company_name' job_role' ->
       result (search_company_info py_str (serper_key w') company_name' job_role') w'
       = Returned EmptyString
       /\ "No relevant info found." <> EmptyString.
Proof.
  intros Hok Horg. split.
  - unfold result. rewrite (search_succeeds_run _ _ _ _ Hok).
    destruct Horg as [-> | ->]; reflexivity.
  - intros w' c' r' Hfail. split; [| discriminate].
    unfold result. destruct (search_fails_run _ _ _ Hfail) as [e ->].
    reflexivity.
Qed.

(** *** The guide *)

(** Every run of [generate_interview_guide] sends one completion request
    and returns: the stripped content, or the empty string after an error
    message. *)
Lemma generate_run (w : world) (company_name job_role facts : string) :
  let prompt := build_prompt company_name job_role facts in
  let failed e :=
    ([completion_event w prompt;
      StError ("⚠️ Error generating guide: " ++ exn_str e)],
     Returned EmptyString) in
  generate_interview_guide (groq_key w) company_name job_role facts w
  = match completion_answer w prompt with
    | CreateRaises e => failed e
    | CreateReturns completion =>
        match choices completion with
        | [] => failed (Exn "IndexError" "list index out of range")
        | choice :: _ =>
            match content (message choice) with
            | None => failed (AttributeError PNone "strip")
            | Some text => ([completion_event w prompt], Returned (py_strip text))
            end
        end
    end.
Proof.
  unfold generate_interview_guide, completion_answer, completion_event,
    try_except, bind, chat_completions_create.
  destruct (completion_provider _ _ _ _ _ _) as [e | [[|[[[text|]]] rest]]];
    reflexivity.
Qed.

Lemma generate_returns (w : world) (company_name job_role facts : string) :
  exists t guide,
    generate_interview_guide (groq_key w) company_name job_role facts w
    = (completion_event w (build_prompt company_name job_role facts) :: t,
       Returned guide)
    /\ (t = [] \/ exists msg, t = [StError msg] /\ guide = EmptyString).
Proof.
  rewrite generate_run. cbv zeta.
  destruct (completion_answer _ _) as [e | [[|[[[text|]]] rest]]]; simpl;
    eauto 8.
Qed.

(** *** The page *)

Lemma on_submit_run (w : world) (company_name job_role : string) :
  on_submit py_str (groq_key w) (serper_key w) company_name job_role w
  = if is_empty company_name || is_empty job_role then
      ([StWarning "⚠️ Please enter both a company name and a job role."],
       Stopped)
    else
      let searching := StSpinner "🔍 Searching the web for company details..." in
      match search_company_info py_str (serper_key w) company_name job_role w with
      | (ts, Returned facts) =>
          if is_empty facts then
            (searching :: ts ++ [StWarning "No data found to generate guide."],
             Stopped)
          else
            let shown :=
              [StSubheader "🌐 Web Insights"; StMarkdown facts;
               StSpinner "🧠 Generating your AI-based interview preparation guide..."] in
            match generate_interview_guide (groq_key w) company_name job_role facts w with
            | (tg, Returned guide) =>
                (searching :: ts ++ shown ++ tg
                   ++ (if is_empty guide then []
                       else guide_events company_name job_role guide),
                 Returned tt)
            | (tg, Stopped) => (searching :: ts ++ shown ++ tg, Stopped)
            | (tg, Raised e) => (searching :: ts ++ shown ++ tg, Raised e)
            end
      | (ts, Stopped) => (searching :: ts, Stopped)
      | (ts, Raised e) => (searching :: ts, Raised e)
      end.
Proof.
  unfold on_submit, guide_events.
  unfold bind at 1. destruct (is_empty company_name || is_empty job_role).
  - reflexivity.
  - unfold ret at 1. unfold bind at 1 2, st_spinner at 1, emit at 1.
    destruct (search_company_info _ _ _ _ _) as [ts [facts | | e]];
      [| reflexivity | reflexivity].
    unfold bind at 1 2. destruct (is_empty facts).
    + unfold st_warning, st_stop, bind, emit. simpl. reflexivity.
    + unfold ret at 1. unfold bind at 1 2 3 4, st_subheader at 1,
        st_markdown at 1, st_spinner, emit at 1 2 3.
      destruct (generate_interview_guide _ _ _ _ _) as [tg [guide | | e]];
        simpl; rewrite ?app_nil_r; try reflexivity.
      destruct (is_empty guide); simpl; rewrite ?app_nil_r; reflexivity.
Qed.

Lemma truthy_env_false (v : option string) :
  truthy_env v = false <-> missing v.
Proof.
  unfold missing. destruct v as [[|c s]|]; simpl; split; intros H;
    try reflexivity; try discriminate; auto;
    destruct H as [H | H]; discriminate.
Qed.

Lemma truthy_env_true (v : option string) :
  truthy_env v = true <-> ~ missing v.
Proof.
  rewrite <- truthy_env_false. destruct (truthy_env v); split; congruence.
Qed.

Lemma app_run (w : world) :
  app py_str w
  = if negb (truthy_env (groq_key w)) || negb (truthy_env (serper_key w)) then
      ([StError "❌ Missing API keys! Please check your .env file."], Stopped)
    else if submitted w then
      let (t, o) :=
        on_submit py_str (groq_key w) (serper_key w) (company_of w) (role_of w) w in
      ((page_events ++ t)%list, o)
    else (page_events, Returned tt).
Proof.
  unfold app, groq_key, serper_key, submitted, company_of, role_of.
  unfold bind at 1 2 3, os_getenv. cbv beta iota zeta.
  destruct (negb (truthy_env (environ w "GROQ_API_KEY"))
            || negb (truthy_env (environ w "SERPER_API_KEY"))).
  - reflexivity.
  - unfold ret at 1, bind at 1 2 3 4 5 6 7 8, st_set_page_config, st_title,
      st_markdown, st_divider, st_form, st_text_input, st_form_submit_button,
      emit.
    cbv beta iota zeta.
    destruct (button_pressed w "Generate Interview Guide").
    + destruct (on_submit _ _ _ _ _ _) as [t o]. reflexivity.
    + reflexivity.
Qed.

(** A submitted form, both keys present: the page, then the handler. *)
Lemma app_submitted (w : world) :
  keys_present w -> submitted w = true ->
  app py_str w
  = let (t, o) :=
      on_submit py_str (groq_key w) (serper_key w) (company_of w) (role_of w) w in
    ((page_events ++ t)%list, o).
Proof.
  intros [Hg Hs] Hsub. rewrite app_run, Hsub.
  apply truthy_env_true in Hg, Hs. now rewrite Hg, Hs.
Qed.

(** C9: when either secret is absent or empty the page reports the missing
    keys and stops there, before the form is drawn or a request served; when
    both are present and non-empty the page is drawn and a submitted form is
    handled. *)
Theorem credential_gate (w : world) :
  (missing (groq_key w) \/ missing (serper_key w) ->
   app py_str w
   = ([StError "❌ Missing API keys! Please check your .env file."], Stopped))
  /\ (keys_present w ->
      app py_str w
      = if submitted w then
          let (t, o) :=
            on_submit py_str (groq_key w) (serper_key w)
              (company_of w) (role_of w) w in
          ((page_events ++ t)%list, o)
        else (page_events, Returned tt)).
Proof.
  split.
  - intros H. rewrite app_run.
    destruct H as [H | H]; apply truthy_env_false in H; rewrite H;
      [reflexivity | now rewrite orb_true_r].
  - intros [Hg Hs]. rewrite app_run.
    apply truthy_env_true in Hg, Hs. now rewrite Hg, Hs.
Qed.

Lemma empty_input_run (w : world) :
  keys_present w -> submitted w = true ->
  company_of w = EmptyString \/ role_of w = EmptyString ->
  app py_str w
  = ((page_events
        ++ [StWarning "⚠️ Please enter both a company name and a job role."])%list,
     Stopped).
Proof.
  intros Hk Hsub Hempty.
  rewrite (app_submitted w Hk Hsub), on_submit_run.
  destruct Hempty as [-> | ->]; [reflexivity |].
  now rewrite orb_true_r.
Qed.

(** C5: a submitted form whose company name or job role is empty gets the
    warning and stops; the run makes no network call, neither the search
    nor the completion. *)
Theorem empty_input_aborts (w : world) :
  keys_present w -> submitted w = true ->
  company_of w = EmptyString \/ role_of w = EmptyString ->
  app py_str w
  = ((page_events
        ++ [StWarning "⚠️ Please enter both a company name and a job role."])%list,
     Stopped)
  /\ filter is_network (trace (app py_str) w) = [].
Proof.
  intros Hk Hsub Hempty.
  pose proof (empty_input_run w Hk Hsub Hempty) as Hrun.
  split; [exact Hrun |].
  unfold trace. rewrite Hrun. reflexivity.
Qed.

(** *** Requests *)

Lemma request_run (w : world) :
  request w ->
  app py_str w
  = let (t, o) :=
      let searching := StSpinner "🔍 Searching the web for company details..." in
      match search_company_info py_str (serper_key w) (company_of w) (role_of w) w with
      | (ts, Returned facts) =>
          if is_empty facts then
            (searching :: ts ++ [StWarning "No data found to generate guide."],
             Stopped)
          else
            let shown :=
              [StSubheader "🌐 Web Insights"; StMarkdown facts;
               StSpinner "🧠 Generating your AI-based interview preparation guide..."] in
            match generate_interview_guide (groq_key w) (company_of w) (role_of w) facts w with
            | (tg, Returned guide) =>
                (searching :: ts ++ shown ++ tg
                   ++ (if is_empty guide then []
                       else guide_events (company_of w) (role_of w) guide),
                 Returned tt)
            | (tg, Stopped) => (searching :: ts ++ shown ++ tg, Stopped)
            | (tg, Raised e) => (searching :: ts ++ shown ++ tg, Raised e)
            end
      | (ts, Stopped) => (searching :: ts, Stopped)
      | (ts, Raised e) => (searching :: ts, Raised e)
      end%list in
    ((page_events ++ t)%list, o).
Proof.
  intros (Hk & Hsub & Hc & Hr).
  rewrite (app_submitted w Hk Hsub), on_submit_run.
  apply is_empty_false in Hc, Hr. rewrite Hc, Hr. reflexivity.
Qed.

Lemma digest_run (w : world) (facts : string) :
  digest py_str w = Returned facts ->
  exists ts,
    search_company_info py_str (serper_key w) (company_of w) (role_of w) w
    = (search_event w (company_of w) (role_of w) :: ts, Returned facts)
    /\ (ts = [] \/ exists msg, ts = [StError msg]).
Proof.
  unfold digest, result. intros H.
  destruct (search_shape w (company_of w) (role_of w)) as [[o Ho] | [e He]].
  - rewrite Ho in *. simpl in H. subst o. eauto.
  - rewrite He in *. simpl in H. rewrite <- H. eauto 6.
Qed.

Lemma guide_run (w : world) (facts text : string) :
  guide w facts = Returned text ->
  exists tg,
    generate_interview_guide (groq_key w) (company_of w) (role_of w) facts w
    = (completion_event w (build_prompt (company_of w) (role_of w) facts) :: tg,
       Returned text)
    /\ (tg = [] \/ exists msg, tg = [StError msg]).
Proof.
  unfold guide, result. intros H.
  destruct (generate_returns w (company_of w) (role_of w) facts)
    as (t & g & Hg & Ht).
  rewrite Hg in *. simpl in H. injection H as ->.
  exists t. split; [reflexivity |].
  destruct Ht as [-> | (msg & -> & _)]; eauto.
Qed.

(** C1, as amended: when the search call of a request fails (a transport
    error, or a 4xx or 5xx status), the digest is the empty string, no
    completion request is sent, and the run stops after the warning. *)
Theorem failed_search_aborts (w : world) :
  request w ->
  search_call_fails w (company_of w) (role_of w) ->
  digest py_str w = Returned EmptyString
  /\ filter is_completion (trace (app py_str) w) = []
  /\ result (app py_str) w = Stopped.
Proof.
  intros Hreq Hfail.
  destruct (search_fails_run w _ _ Hfail) as [e He].
  unfold digest, result, trace.
  rewrite (request_run w Hreq), He. simpl. auto.
Qed.

(** C6: when the digest of a request is non-empty, exactly one completion
    request is sent, and its prompt contains the company name, the job role
    and the digest as they are. *)
Theorem guide_requested_once (w : world) (facts : string) :
  request w ->
  digest py_str w = Returned facts ->
  facts <> EmptyString ->
  let prompt := build_prompt (company_of w) (role_of w) facts in
  filter is_completion (trace (app py_str) w)
  = [ChatCompletionsCreate (groq_key w) "llama-3.3-70b-versatile"
       [[("role", "user"); ("content", prompt)]] (6 # 10)%Q 1024%Z]
  /\ Substring (company_of w) prompt
  /\ Substring (role_of w) prompt
  /\ Substring facts prompt.
Proof.
  intros Hreq Hd Hne prompt. split; [| apply prompt_contains].
  destruct (digest_run w facts Hd) as (ts & Hs & Hts).
  destruct (generate_returns w (company_of w) (role_of w) facts)
    as (tg & text & Hg & Htg).
  unfold trace. rewrite (request_run w Hreq), Hs, Hg.
  apply is_empty_false in Hne. rewrite Hne.
  destruct Hts as [-> | [m1 ->]], Htg as [-> | (m2 & -> & ->)];
    try (destruct (is_empty text)); reflexivity.
Qed.

(** C7: a failed completion call, or a completion whose content strips to
    nothing, makes [generate_interview_guide] return the empty string; and
    whenever the guide of a request is the empty string the run ends with
    the events of the generation: no success message, no guide, no download
    button. *)
Theorem empty_guide_shows_nothing (w : world) (facts : string) :
  let prompt := build_prompt (company_of w) (role_of w) facts in
  (forall e, completion_answer w prompt = CreateRaises e ->
             guide w facts = Returned EmptyString)
  /\ (forall choice rest text,
        completion_answer w prompt
        = CreateReturns (ChatCompletion (choice :: rest)) ->
        content (message choice) = Some text ->
        py_strip text = EmptyString ->
        guide w facts = Returned EmptyString)
  /\ (request w ->
      digest py_str w = Returned facts ->
      facts <> EmptyString ->
      guide w facts = Returned EmptyString ->
      filter is_guide_output (trace (app py_str) w) = []
      /\ result (app py_str) w = Returned tt
      /\ trace (app py_str) w
         = (page_events
              ++ [StSpinner "🔍 Searching the web for company details..."]
              ++ trace (search_company_info py_str (serper_key w)
                          (company_of w) (role_of w)) w
              ++ [StSubheader "🌐 Web Insights"; StMarkdown facts;
                  StSpinner "🧠 Generating your AI-based interview preparation guide..."]
              ++ trace (generate_interview_guide (groq_key w)
                          (company_of w) (role_of w) facts) w)%list).
Proof.
  intros prompt. repeat apply conj.
  - intros e He. unfold guide, result. rewrite generate_run. cbv zeta.
    fold prompt. now rewrite He.
  - intros choice rest text Hc Ht Hs. unfold guide, result.
    rewrite generate_run. cbv zeta. fold prompt. rewrite Hc. simpl.
    rewrite Ht. simpl. now rewrite Hs.
  - intros Hreq Hd Hne Hg.
    destruct (digest_run w facts Hd) as (ts & Hs & Hts).
    destruct (guide_run w facts _ Hg) as (tg & Hgen & Htg).
    unfold trace, result. rewrite (request_run w Hreq), Hs, Hgen.
    apply is_empty_false in Hne. rewrite Hne.
    destruct Hts as [-> | [m1 ->]], Htg as [-> | [m2 ->]];
      repeat split; reflexivity.
Qed.

(** C8: when the guide of a request is non-empty, one download button is
    offered; its file name is the company name, an underscore, the job role
    and "_Interview_Guide.txt", the two taken as typed, and its data is the
    guide as [generate_interview_guide] returned it. *)
Theorem download_offered (w : world) (facts text : string) :
  request w ->
  digest py_str w = Returned facts ->
  facts <> EmptyString ->
  guide w facts = Returned text ->
  text <> EmptyString ->
  filter is_download (trace (app py_str) w)
  = [StDownloadButton "📥 Download Guide as Text" text
       (company_of w ++ "_" ++ role_of w ++ "_Interview_Guide.txt")
       "text/plain"].
Proof.
  intros Hreq Hd Hne Hg Htext.
  destruct (digest_run w facts Hd) as (ts & Hs & Hts).
  destruct (guide_run w facts _ Hg) as (tg & Hgen & Htg).
  unfold trace. rewrite (request_run w Hreq), Hs, Hgen.
  apply is_empty_false in Hne, Htext. rewrite Hne, Htext.
  destruct Hts as [-> | [m1 ->]], Htg as [-> | [m2 ->]]; reflexivity.
Qed.

(** C10: a submitted form is turned away only when a field is exactly the
    empty string.  Fields that are non-empty (those made of whitespace alone
    among them) pass, and the one search call carries them as typed, with no
    trimming, in its query. *)
Theorem whitespace_is_searched (w : world) :
  keys_present w -> submitted w = true ->
  let rejected :=
    In (StWarning "⚠️ Please enter both a company name and a job role.")
       (trace (app py_str) w) in
  (company_of w <> EmptyString -> role_of w <> EmptyString ->
   ~ rejected
   /\ filter is_post (trace (app py_str) w)
      = [RequestsPost "https://google.serper.dev/search"
           (search_headers (serper_key w))
           [("q", PStr (company_of w ++ " " ++ role_of w
                          ++ " interview salary reviews company type"))]])
  /\ (rejected <-> company_of w = EmptyString \/ role_of w = EmptyString).
Proof.
  intros Hk Hsub rejected.
  assert (Hpass : company_of w <> EmptyString -> role_of w <> EmptyString ->
                  ~ rejected
                  /\ filter is_post (trace (app py_str) w)
                     = [search_event w (company_of w) (role_of w)]).
  { intros Hc Hr. unfold rejected, trace.
    rewrite (request_run w (conj Hk (conj Hsub (conj Hc Hr)))).
    destruct (search_shape w (company_of w) (role_of w)) as [[o ->] | [e ->]].
    - destruct o as [facts | | e]; [| simpl; intuition discriminate ..].
      destruct (generate_returns w (company_of w) (role_of w) facts)
        as (tg & text & -> & Htg).
      destruct (is_empty facts); [simpl; intuition discriminate |].
      destruct Htg as [-> | (msg & -> & ->)]; try destruct (is_empty text);
        simpl; intuition discriminate.
    - simpl. intuition discriminate. }
  split; [exact Hpass |].
  split.
  - intros Hrej.
    destruct (company_of w) eqn:Hc; [now left |].
    destruct (role_of w) eqn:Hr; [now right |].
    exfalso. apply Hpass; [discriminate | discriminate | exact Hrej].
  - intros Hempty. unfold rejected.
    unfold trace. rewrite (empty_input_run w Hk Hsub Hempty).
    simpl. auto 12.
Qed.

End Runs.

(** ** The properties on the sample runs *)

Ltac sample_request :=
  repeat split; try reflexivity;
  try (intros [H | H]; vm_compute in H; discriminate H);
  try (intros H; vm_compute in H; discriminate H).

Ltac sample_answer :=
  eexists _, _; repeat split; try reflexivity; lia.

Lemma digest_of_results_sample :
  result (search_company_info sample_str (serper_key acme_found)
            "Acme" "Engineer") acme_found
  = Returned acme_digest.
Proof.
  refine (proj1 (digest_of_results sample_str acme_found "Acme" "Engineer"
                   [hit "Acme careers" "https://acme.example/jobs" "Open roles";
                    PDict [("title", PStr "Acme reviews")]] _ _ _)).
  - sample_answer.
  - simpl. lia.
  - repeat constructor.
Defined.

Lemma digest_of_no_results_sample :
  result (search_company_info sample_str (serper_key acme_not_found)
            "Acme" "Engineer") acme_not_found
  = Returned "No relevant info found.".
Proof.
  refine (proj1 (digest_of_no_results sample_str acme_not_found
                   "Acme" "Engineer" (Some (PList [])) _ _)).
  - sample_answer.
  - left. reflexivity.
Defined.

Lemma failed_search_aborts_sample :
  digest sample_str acme_unreachable = Returned EmptyString
  /\ filter is_completion (trace (app sample_str) acme_unreachable) = []
  /\ result (app sample_str) acme_unreachable = Stopped.
Proof.
  apply (failed_search_aborts sample_str acme_unreachable).
  - sample_request.
  - left. eexists. reflexivity.
Defined.

(** C1, as stated, fails: the provider answers 300, which is no 2xx status;
    [raise_for_status] lets it pass, the digest is built from the body and a
    completion request is sent. *)
Lemma non_2xx_answer_is_used :
  (exists r,
      search_answer acme_multiple_choices "Acme" "Engineer" = PostReturns r
      /\ ~ (200 <= status_code r < 300)%Z)
  /\ digest sample_str acme_multiple_choices = Returned acme_digest
  /\ acme_digest <> EmptyString
  /\ List.length (filter is_completion
                    (trace (app sample_str) acme_multiple_choices)) = 1%nat.
Proof.
  split.
  { exists (Response 300 "Multiple Choices" search_url (inr two_hits)).
    split; [reflexivity | simpl; lia]. }
  split; [reflexivity |].
  split; [discriminate | reflexivity].
Qed.

Lemma empty_input_aborts_sample :
  app sample_str no_role
  = ((page_events
        ++ [StWarning "⚠️ Please enter both a company name and a job role."])%list,
     Stopped)
  /\ filter is_network (trace (app sample_str) no_role) = [].
Proof.
  apply (empty_input_aborts sample_str no_role).
  - sample_request.
  - reflexivity.
  - right. reflexivity.
Defined.

Lemma guide_requested_once_sample :
  let prompt := build_prompt "Acme" "Engineer" acme_digest in
  filter is_completion (trace (app sample_str) acme_found)
  = [ChatCompletionsCreate (Some "gsk_test") "llama-3.3-70b-versatile"
       [[("role", "user"); ("content", prompt)]] (6 # 10)%Q 1024%Z]
  /\ Substring "Acme" prompt
  /\ Substring "Engineer" prompt
  /\ Substring acme_digest prompt.
Proof.
  apply (guide_requested_once sample_str acme_found acme_digest).
  - sample_request.
  - reflexivity.
  - discriminate.
Defined.

Lemma empty_guide_shows_nothing_sample :
  guide acme_no_guide acme_digest = Returned EmptyString
  /\ filter is_guide_output (trace (app sample_str) acme_no_guide) = []
  /\ result (app sample_str) acme_no_guide = Returned tt.
Proof.
  pose proof (empty_guide_shows_nothing sample_str acme_no_guide acme_digest)
    as (Hfail & _ & Hshow).
  assert (Hg : guide acme_no_guide acme_digest = Returned EmptyString)
    by (eapply Hfail; reflexivity).
  split; [exact Hg |].
  assert (Hreq : request acme_no_guide) by sample_request.
  assert (Hne : acme_digest <> EmptyString) by discriminate.
  destruct (Hshow Hreq eq_refl Hne Hg) as (Hout & Hres & _).
  split; assumption.
Defined.

Lemma download_offered_sample :
  filter is_download (trace (app sample_str) acme_found)
  = [StDownloadButton "📥 Download Guide as Text" "## Guide text"
       "Acme_Engineer_Interview_Guide.txt" "text/plain"].
Proof.
  apply (download_offered sample_str acme_found acme_digest "## Guide text").
  - sample_request.
  - reflexivity.
  - discriminate.
  - reflexivity.
  - discriminate.
Defined.

Lemma credential_gate_sample :
  app sample_str no_search_key
  = ([StError "❌ Missing API keys! Please check your .env file."], Stopped)
  /\ fst (app sample_str acme_found)
     = (page_events
          ++ fst (on_submit sample_str (Some "gsk_test") (Some "serper_test")
                    "Acme" "Engineer" acme_found))%list.
Proof.
  split.
  - apply (proj1 (credential_gate sample_str no_search_key)).
    right. left. reflexivity.
  - rewrite (proj2 (credential_gate sample_str acme_found)).
    + reflexivity.
    + sample_request.
Defined.

Lemma whitespace_is_searched_sample :
  py_strip (company_of blank_fields) = EmptyString
  /\ py_strip (role_of blank_fields) = EmptyString
  /\ filter is_post (trace (app sample_str) blank_fields)
     = [RequestsPost "https://google.serper.dev/search"
          (search_headers (Some "serper_test"))
          [("q", PStr ("   " ++ " " ++ String "009"%char EmptyString
                         ++ " interview salary reviews company type"))]].
Proof.
  split; [reflexivity |]. split; [reflexivity |].
  assert (Hk : keys_present blank_fields) by sample_request.
  apply (proj1 (whitespace_is_searched sample_str blank_fields Hk eq_refl));
    intros H; vm_compute in H; discriminate H.
Defined.

(** ** More on the two functions *)

Section Outcomes.

Variable py_str : pyval -> string.

(** The loop either reads every item, or stops at the first item that is no
    object with the [AttributeError] of its [get]. *)
Lemma summary_loop_cases (items : list pyval) :
  forall (summary : list string) (w : world),
    (Forall is_object items
     /\ summary_loop py_str items summary w
        = ([], Returned (summary ++ map (bullet_line py_str) items)%list))
    \/ (exists item,
          In item items /\ ~ is_object item
          /\ summary_loop py_str items summary w
             = ([], Raised (AttributeError item "get"))).
Proof.
  induction items as [|item rest IH]; intros summary w.
  - left. split; [constructor |]. simpl. now rewrite app_nil_r.
  - destruct item as [| b | n | f | s | l | d];
      try (right; eexists; split; [left; reflexivity |];
           split; [intros H; exact H | reflexivity]).
    destruct (IH (summary ++ [bullet_line py_str (PDict d)])%list w)
      as [[Hobj Hrun] | (item & Hin & Hno & Hrun)].
    + left. split; [constructor; [exact I | exact Hobj] |].
      simpl. unfold bind, py_get, ret. simpl.
      rewrite bullet_of_object, Hrun, <- app_assoc. reflexivity.
    + right. exists item. split; [right; exact Hin |]. split; [exact Hno |].
      simpl. unfold bind, py_get, ret. simpl.
      rewrite bullet_of_object, Hrun. reflexivity.
Qed.

Lemma py_chars_from_head (l : list ascii) :
  forall cur, cur <> EmptyString ->
    exists h t, py_chars_from cur l = h :: t /\ h <> EmptyString.
Proof.
  induction l as [|c l IH]; intros cur Hcur; simpl.
  - eauto.
  - destruct (continuation c).
    + apply IH. destruct cur; [congruence | discriminate].
    + eauto.
Qed.

Lemma py_chars_head (s : string) :
  s <> EmptyString ->
  exists h t, py_chars s = h :: t /\ h <> EmptyString.
Proof.
  destruct s as [|c s]; [congruence |]. intros _.
  unfold py_chars. simpl. apply py_chars_from_head. discriminate.
Qed.

Lemma concat_head_nonempty (sep h : string) (t : list string) :
  h <> EmptyString -> String.concat sep (h :: t) <> EmptyString.
Proof.
  intros Hh. destruct h as [|c h]; [congruence |].
  destruct t; simpl; discriminate.
Qed.

(** A non-empty [str] under [organic]: the loop meets a one-character
    [str] first. *)
Lemma str_results_raise (s : string) (w : world) :
  s <> EmptyString ->
  exists c,
    (sliced <- py_slice (PStr s) 6 ;;
     items <- py_iter sliced ;;
     summary <- summary_loop py_str items [] ;;
     ret (String.concat nl summary)) w
    = ([], Raised (AttributeError (PStr c) "get")).
Proof.
  intros Hs.
  destruct (py_chars_head s Hs) as (h & t & Hc & Hh).
  unfold py_slice, py_iter, bind at 1 2, ret at 1 2. rewrite Hc.
  change (firstn 6 (h :: t)) with (h :: firstn 5 t).
  destruct (py_chars_head _ (concat_head_nonempty EmptyString h (firstn 5 t) Hh))
    as (h' & t' & -> & _).
  exists h'. reflexivity.
Qed.

(** What [search_company_info] does once the [try] block has left
    [results]. *)
Local Abbreviation after_try results :=
  (if negb (truthy results) then ret "No relevant info found." else
   sliced <- py_slice results 6 ;;
   items <- py_iter sliced ;;
   summary <- summary_loop py_str items [] ;;
   ret (String.concat nl summary)).

Lemma after_try_cases (results : pyval) (w : world) :
  (truthy results = false
   /\ after_try results w = ([], Returned "No relevant info found."))
  \/ (exists items,
        results = PList items /\ items <> []
        /\ Forall is_object (firstn 6 items)
        /\ after_try results w
           = ([], Returned (String.concat nl
                              (map (bullet_line py_str) (firstn 6 items)))))
  \/ (unreadable results /\ exists e, after_try results w = ([], Raised e)).
Proof.
  destruct (truthy results) eqn:Ht; [| left; split; reflexivity].
  right. cbv [negb].
  destruct results as [| b | n | f | s | items | d].
  - discriminate.
  - right. split; [split; [exact Ht | exact I] | eexists; reflexivity].
  - right. split; [split; [exact Ht | exact I] | eexists; reflexivity].
  - right. split; [split; [exact Ht | exact I] | eexists; reflexivity].
  - right. split; [split; [exact Ht | exact I] |].
    destruct (str_results_raise s w) as [c Hc].
    { destruct s; [discriminate | discriminate]. }
    eexists. exact Hc.
  - destruct (summary_loop_cases (firstn 6 items) [] w)
      as [[Hobj Hrun] | (item & Hin & Hno & Hrun)].
    + left. exists items. split; [reflexivity |].
      split; [destruct items; [discriminate | discriminate] |].
      split; [exact Hobj |].
      unfold py_slice, py_iter, bind, ret. rewrite Hrun. reflexivity.
    + right. split.
      * split; [exact Ht |]. apply Exists_exists. eauto.
      * eexists. unfold py_slice, py_iter, bind, ret. rewrite Hrun.
        reflexivity.
  - right. split; [split; [exact Ht | exact I] | eexists; reflexivity].
Qed.

(** An answer that passes [raise_for_status] with an object for a body:
    the post, then the run after the [try] block. *)
Lemma search_object_run (w : world) (company_name job_role : string)
    (d : list (string * pyval)) :
  search_answer_body w company_name job_role (inr (PDict d)) ->
  search_company_info py_str (serper_key w) company_name job_role w
  = let results :=
      match dict_lookup d "organic" with Some x => x | None => PList [] end in
    let (t, o) := after_try results w in
    (search_event w company_name job_role :: t, o).
Proof.
  unfold search_answer_body, search_answer.
  intros (r & Hr & Hs & Hb).
  unfold search_company_info, search_event, bind at 1 2 3 4 5, try_except,
    requests_post.
  rewrite Hr, raise_for_status_passes by exact Hs.
  unfold response_json. rewrite Hb.
  unfold py_get, ret at 1 2. simpl. reflexivity.
Qed.

(** An answer that passes [raise_for_status] with a body that does not
    decode, or decodes to something that is no object: the [try] block
    fails. *)
Lemma search_bad_body_run (w : world) (company_name job_role : string)
    (body : string + pyval) :
  search_answer_body w company_name job_role body ->
  match body with inl _ => True | inr v => ~ is_object v end ->
  search_company_info py_str (serper_key w) company_name job_role w
  = ([search_event w company_name job_role;
      StError ("⚠️ Error fetching company info: "
               ++ match body with
                  | inl msg => msg
                  | inr v => "'" ++ type_name v
                                 ++ "' object has no attribute 'get'"
                  end)],
     Returned EmptyString).
Proof.
  unfold search_answer_body, search_answer.
  intros (r & Hr & Hs & Hb) Hbad.
  unfold search_company_info, search_event, bind at 1 2 3 4 5, try_except,
    requests_post.
  rewrite Hr, raise_for_status_passes by exact Hs.
  unfold response_json. rewrite Hb.
  destruct body as [msg | v]; [reflexivity |].
  destruct v; try reflexivity. contradiction Hbad. exact I.
Qed.

(** The four ways a run of [search_company_info] ends. *)
Lemma search_cases (w : world) (company_name job_role : string) :
  let run := search_company_info py_str (serper_key w) company_name job_role w in
  let post := search_event w company_name job_role in
  (exists msg, run = ([post; StError msg], Returned EmptyString))
  \/ run = ([post], Returned "No relevant info found.")
  \/ (exists items,
        items <> [] /\ (List.length items <= 6)%nat /\ Forall is_object items
        /\ run = ([post],
                  Returned (String.concat nl (map (bullet_line py_str) items))))
  \/ (exists e, run = ([post], Raised e)).
Proof.
  cbv zeta.
  destruct (search_answer w company_name job_role) as [e | r] eqn:Hanswer.
  { left. destruct (search_fails_run py_str w company_name job_role) as [e' ->].
    - left. eauto.
    - eauto. }
  destruct (Z_le_dec 400 (status_code r)) as [Hlo |];
    [destruct (Z_lt_dec (status_code r) 600) as [Hhi |] |].
  { left. destruct (search_fails_run py_str w company_name job_role) as [e' ->].
    - right. exists r. split; [exact Hanswer | lia].
    - eauto. }
  all: assert (Hbody : search_answer_body w company_name job_role (json_body r))
    by (exists r; split; [exact Hanswer | split; [lia | reflexivity]]).
  all: destruct (json_body r) as [msg | body];
    [left; rewrite (search_bad_body_run w _ _ _ Hbody I); eauto |].
  all: destruct body as [| b | z | f | s | l | d];
    try (left; rewrite (search_bad_body_run w _ _ _ Hbody (fun H => H)); eauto).
  all: rewrite (search_object_run w _ _ d Hbody); cbv zeta.
  all: match goal with
       | |- context [after_try ?results ?w'] =>
           destruct (after_try_cases results w')
             as [[_ ->] | [(items & _ & Hne & Hobj & ->) | [_ [e ->]]]]
       end.
  all: try (right; left; reflexivity).
  all: try (right; right; right; eexists; reflexivity).
  all: right; right; left; exists (firstn 6 items).
  all: split; [destruct items; [congruence | discriminate] |].
  all: split; [rewrite length_firstn; lia |].
  all: split; [exact Hobj | reflexivity].
Qed.

(** X1: an answer whose status passes but whose body does not decode, or
    decodes to something that is no JSON object, is a failed search: the
    exception is caught, its text is shown after "Error fetching company
    info", the digest is the empty string, and the request stops at the
    "No data found" warning with no completion request sent. *)
Theorem bad_body_aborts (w : world) (body : string + pyval) :
  request w ->
  search_answer_body w (company_of w) (role_of w) body ->
  match body with inl _ => True | inr v => ~ is_object v end ->
  digest py_str w = Returned EmptyString
  /\ app py_str w
     = ((page_events
           ++ [StSpinner "🔍 Searching the web for company details...";
               search_event w (company_of w) (role_of w);
               StError ("⚠️ Error fetching company info: "
                        ++ match body with
                           | inl msg => msg
                           | inr v => "'" ++ type_name v
                                          ++ "' object has no attribute 'get'"
                           end);
               StWarning "No data found to generate guide."])%list,
        Stopped).
Proof.
  intros Hreq Hbody Hbad.
  pose proof (search_bad_body_run w _ _ body Hbody Hbad) as Hrun.
  unfold digest, result. rewrite (request_run py_str w Hreq), Hrun.
  split; reflexivity.
Qed.

(** X2: when the body is an object whose [organic] is any false value
    (null, false, 0, 0.0, the empty string, the empty list, the empty
    object), [search_company_info] shows nothing and returns
    "No relevant info found.". *)
Theorem falsy_results_give_sentinel (w : world)
    (company_name job_role : string) (d : list (string * pyval))
    (results : pyval) :
  search_answer_body w company_name job_role (inr (PDict d)) ->
  dict_lookup d "organic" = Some results ->
  truthy results = false ->
  search_company_info py_str (serper_key w) company_name job_role w
  = ([search_event w company_name job_role],
     Returned "No relevant info found.").
Proof.
  intros Hbody Hd Ht.
  rewrite (search_object_run w _ _ d Hbody), Hd. cbv zeta.
  rewrite Ht. reflexivity.
Qed.

Lemma unreadable_raises (results : pyval) (w : world) :
  unreadable results ->
  exists e, after_try results w = ([], Raised e).
Proof.
  intros [Ht Hun].
  destruct (after_try_cases results w)
    as [[Hf _] | [(items & -> & _ & Hobj & _) | [_ He]]].
  - congruence.
  - exfalso. apply Exists_exists in Hun. destruct Hun as (item & Hin & Hno).
    apply Hno. rewrite Forall_forall in Hobj. now apply Hobj.
  - exact He.
Qed.

(** X3: when [organic] is a true value that is no list, or a list with a
    non-object among its first six entries, the exception of the loop is
    not caught: [search_company_info] raises after its post, having shown
    nothing, and the page run of the request ends with that exception,
    before the digest is shown and with no completion request. *)
Theorem unreadable_results_raise (w : world) (d : list (string * pyval))
    (results : pyval) :
  search_answer_body w (company_of w) (role_of w) (inr (PDict d)) ->
  dict_lookup d "organic" = Some results ->
  unreadable results ->
  exists e,
    search_company_info py_str (serper_key w) (company_of w) (role_of w) w
    = ([search_event w (company_of w) (role_of w)], Raised e)
    /\ (request w ->
        app py_str w
        = ((page_events
              ++ [StSpinner "🔍 Searching the web for company details...";
                  search_event w (company_of w) (role_of w)])%list,
           Raised e)).
Proof.
  intros Hbody Hd Hun.
  destruct (unreadable_raises results w Hun) as [e He].
  assert (Hrun : search_company_info py_str (serper_key w)
                   (company_of w) (role_of w) w
                 = ([search_event w (company_of w) (role_of w)], Raised e)).
  { rewrite (search_object_run w _ _ d Hbody), Hd. cbv zeta.
    rewrite He. reflexivity. }
  exists e. split; [exact Hrun |].
  intros Hreq. rewrite (request_run py_str w Hreq), Hrun. reflexivity.
Qed.

(** X4: [search_company_info] returns the empty string exactly when it
    showed an error message: a search that succeeds never yields the empty
    string, so the caller's emptiness test tells failure apart. *)
Theorem empty_digest_means_error (w : world) (company_name job_role : string) :
  result (search_company_info py_str (serper_key w) company_name job_role) w
  = Returned EmptyString
  <-> filter is_error
        (trace (search_company_info py_str (serper_key w) company_name job_role) w)
      <> [].
Proof.
  unfold result, trace.
  destruct (search_cases w company_name job_role)
    as [[msg ->] | [-> | [(items & Hne & _ & _ & ->) | [e ->]]]]; simpl.
  - split; [discriminate | reflexivity].
  - split; [discriminate | congruence].
  - split; [| congruence]. intros H. exfalso.
    destruct items as [|item items]; [congruence |].
    injection H as H. revert H.
    apply (concat_head_nonempty nl (bullet_line py_str item)
             (map (bullet_line py_str) items)).
    discriminate.
  - split; [discriminate | congruence].
Qed.

(** X5: whatever the provider answers, a digest that [search_company_info]
    returns is the empty string, the sentinel, or between one and six
    bullet lines joined by newlines, each built from a result object. *)
Theorem digest_forms (w : world) (company_name job_role facts : string) :
  result (search_company_info py_str (serper_key w) company_name job_role) w
  = Returned facts ->
  facts = EmptyString
  \/ facts = "No relevant info found."
  \/ exists items,
       (1 <= List.length items <= 6)%nat
       /\ Forall is_object items
       /\ facts = String.concat nl (map (bullet_line py_str) items).
Proof.
  unfold result.
  destruct (search_cases w company_name job_role)
    as [[msg ->] | [-> | [(items & Hne & Hlen & Hobj & ->) | [e ->]]]]; simpl;
    intros H; try discriminate; injection H as <-; auto.
  right. right. exists items. repeat split; try assumption.
  destruct items; [congruence | simpl; lia].
Qed.

(** X6: a search that finds nothing is no failure: the sentinel is shown
    under "Web Insights" and one completion request is sent, whose prompt
    carries the sentinel as the facts. *)
Theorem no_results_still_generates (w : world) (d : list (string * pyval)) :
  request w ->
  search_answer_body w (company_of w) (role_of w) (inr (PDict d)) ->
  dict_lookup d "organic" = None
  \/ (exists results,
        dict_lookup d "organic" = Some results /\ truthy results = false) ->
  let prompt :=
    build_prompt (company_of w) (role_of w) "No relevant info found." in
  In (StMarkdown "No relevant info found.") (trace (app py_str) w)
  /\ filter is_completion (trace (app py_str) w) = [completion_event w prompt]
  /\ Substring "No relevant info found." prompt.
Proof.
  intros Hreq Hbody Hd prompt.
  assert (Hrun : search_company_info py_str (serper_key w)
                   (company_of w) (role_of w) w
                 = ([search_event w (company_of w) (role_of w)],
                    Returned "No relevant info found.")).
  { rewrite (search_object_run w _ _ d Hbody).
    destruct Hd as [-> | (results & -> & Ht)]; cbv zeta;
      [reflexivity | now rewrite Ht]. }
  destruct (generate_returns w (company_of w) (role_of w)
              "No relevant info found.") as (tg & text & Hg & Htg).
  unfold trace. rewrite (request_run py_str w Hreq), Hrun, Hg.
  split; [| split; [| apply prompt_contains]].
  - simpl. auto 20.
  - destruct Htg as [-> | (msg & -> & ->)]; try (destruct (is_empty text));
      reflexivity.
Qed.

(** X7: a completion that has no choice, or whose first choice has no
    content, is handled as a failure: the [IndexError] or [AttributeError]
    is caught, its text is shown after "Error generating guide", and the
    guide is the empty string. *)
Theorem malformed_completion_is_failure (w : world)
    (company_name job_role facts : string) (completion : chat_completion) :
  let prompt := build_prompt company_name job_role facts in
  completion_answer w prompt = CreateReturns completion ->
  match choices completion with
  | [] => True
  | choice :: _ => content (message choice) = None
  end ->
  generate_interview_guide (groq_key w) company_name job_role facts w
  = ([completion_event w prompt;
      StError ("⚠️ Error generating guide: "
               ++ match choices completion with
                  | [] => "list index out of range"
                  | _ :: _ => "'NoneType' object has no attribute 'strip'"
                  end)],
     Returned EmptyString).
Proof.
  intros prompt Hc Hbad. rewrite generate_run. cbv zeta. fold prompt.
  rewrite Hc. destruct (choices completion) as [|choice rest];
    [reflexivity |].
  now rewrite Hbad.
Qed.

(** X8: whatever the completion provider does, [generate_interview_guide]
    returns: it never raises and never stops the page.  It sends exactly one
    completion request and shows at most one message, an error, in which
    case the guide is the empty string. *)
Theorem generate_always_returns (w : world)
    (company_name job_role facts : string) :
  exists text errors,
    generate_interview_guide (groq_key w) company_name job_role facts w
    = (completion_event w (build_prompt company_name job_role facts)
         :: map StError errors,
       Returned text)
    /\ (List.length errors <= 1)%nat
    /\ (errors <> [] -> text = EmptyString).
Proof.
  destruct (generate_returns w company_name job_role facts)
    as (t & text & Hg & [-> | (msg & -> & ->)]).
  - exists text, []. rewrite Hg. repeat split; [simpl; lia | congruence].
  - exists EmptyString, [msg]. rewrite Hg. repeat split. simpl. lia.
Qed.

(** X9: a page run makes no network call, or one search call, or one search
    call followed by one completion request, the latter only for a digest
    that is non-empty; and it makes a network call only for a submitted form
    with both keys present and both fields non-empty. *)
Theorem network_calls_of_a_run (w : world) :
  let calls := filter is_network (trace (app py_str) w) in
  (calls = []
   \/ calls = [search_event w (company_of w) (role_of w)]
   \/ exists facts,
        digest py_str w = Returned facts /\ facts <> EmptyString
        /\ calls = [search_event w (company_of w) (role_of w);
                    completion_event w
                      (build_prompt (company_of w) (role_of w) facts)])
  /\ (calls <> [] -> request w).
Proof.
  cbv zeta. unfold trace.
  destruct (truthy_env (groq_key w)) eqn:Hg;
    [| rewrite app_run, Hg; simpl; split; [left; reflexivity | congruence]].
  destruct (truthy_env (serper_key w)) eqn:Hs;
    [| rewrite app_run, Hg, Hs; simpl; split; [left; reflexivity | congruence]].
  destruct (submitted w) eqn:Hsub;
    [| rewrite app_run, Hg, Hs, Hsub; simpl;
       split; [left; reflexivity | congruence]].
  assert (Hk : keys_present w)
    by (split; apply (proj1 (truthy_env_true _)); assumption).
  destruct (is_empty (company_of w)) eqn:Hc.
  { apply is_empty_true in Hc.
    rewrite (empty_input_run py_str w Hk Hsub (or_introl Hc)).
    split; [left; reflexivity | simpl; congruence]. }
  destruct (is_empty (role_of w)) eqn:Hr.
  { apply is_empty_true in Hr.
    rewrite (empty_input_run py_str w Hk Hsub (or_intror Hr)).
    split; [left; reflexivity | simpl; congruence]. }
  apply is_empty_false in Hc, Hr.
  assert (Hreq : request w)
    by (split; [exact Hk | split; [exact Hsub | split; assumption]]).
  split; [| intros _; exact Hreq].
  rewrite (request_run py_str w Hreq). unfold digest, result.
  destruct (search_shape py_str w (company_of w) (role_of w))
    as [[o ->] | [e ->]]; [| right; left; reflexivity].
  destruct o as [facts | | e]; [| right; left; reflexivity ..].
  destruct (is_empty facts) eqn:Hf; [right; left; reflexivity |].
  right. right. exists facts. apply is_empty_false in Hf.
  split; [reflexivity |]. split; [exact Hf |].
  destruct (generate_returns w (company_of w) (role_of w) facts)
    as (tg & text & -> & [-> | (msg & -> & ->)]);
    try (destruct (is_empty text)); reflexivity.
Qed.

(** X10: a non-empty digest is on the page before the guide is asked for:
    the "Web Insights" heading and the digest come right before the second
    spinner and the completion request, and no completion request and no
    guide output come earlier.  A failed generation leaves them shown. *)
Theorem digest_shown_before_generation (w : world) (facts : string) :
  request w ->
  digest py_str w = Returned facts ->
  facts <> EmptyString ->
  exists before after,
    trace (app py_str) w
    = (before
         ++ [StSubheader "🌐 Web Insights"; StMarkdown facts;
             StSpinner "🧠 Generating your AI-based interview preparation guide...";
             completion_event w (build_prompt (company_of w) (role_of w) facts)]
         ++ after)%list
    /\ filter is_completion before = []
    /\ filter is_guide_output before = [].
Proof.
  intros Hreq Hd Hne.
  destruct (digest_run py_str w facts Hd) as (ts & Hs & Hts).
  destruct (generate_returns w (company_of w) (role_of w) facts)
    as (tg & text & Hg & _).
  apply is_empty_false in Hne.
  exists (page_events
            ++ StSpinner "🔍 Searching the web for company details..."
            :: search_event w (company_of w) (role_of w) :: ts)%list,
         (tg ++ (if is_empty text then []
                 else guide_events (company_of w) (role_of w) text))%list.
  unfold trace. rewrite (request_run py_str w Hreq), Hs, Hg, Hne.
  split.
  - simpl. rewrite <- ?app_assoc. reflexivity.
  - destruct Hts as [-> | [msg ->]]; split; reflexivity.
Qed.


(** X12: whenever the digest of a request is the empty string, the page
    adds the warning "No data found to generate guide." to what the search
    showed and stops: the "Web Insights" heading is not reached. *)
Theorem empty_digest_warns (w : world) :
  request w ->
  digest py_str w = Returned EmptyString ->
  app py_str w
  = ((page_events
        ++ [StSpinner "🔍 Searching the web for company details..."]
        ++ trace (search_company_info py_str (serper_key w)
                    (company_of w) (role_of w)) w
        ++ [StWarning "No data found to generate guide."])%list,
     Stopped)
  /\ ~ In (StSubheader "🌐 Web Insights") (trace (app py_str) w).
Proof.
  intros Hreq Hd.
  destruct (digest_run py_str w EmptyString Hd) as (ts & Hs & Hts).
  unfold trace. rewrite (request_run py_str w Hreq), Hs. simpl.
  split; [reflexivity |].
  destruct Hts as [-> | [msg ->]]; simpl; intuition discriminate.
Qed.

(** X13: an exception of a provider call reaches the user as its own text:
    a failed post shows "Error fetching company info: " and the text, a
    failed completion request shows "Error generating guide: " and the text;
    both calls then return the empty string. *)
Theorem errors_are_shown_raw (w : world)
    (company_name job_role facts : string) (e : exn) :
  (search_answer w company_name job_role = PostRaises e ->
   search_company_info py_str (serper_key w) company_name job_role w
   = ([search_event w company_name job_role;
       StError ("⚠️ Error fetching company info: " ++ exn_str e)],
      Returned EmptyString))
  /\ (completion_answer w (build_prompt company_name job_role facts)
      = CreateRaises e ->
      generate_interview_guide (groq_key w) company_name job_role facts w
      = ([completion_event w (build_prompt company_name job_role facts);
          StError ("⚠️ Error generating guide: " ++ exn_str e)],
         Returned EmptyString)).
Proof.
  split.
  - unfold search_answer. intros He.
    unfold search_company_info, search_event, bind, try_except, requests_post.
    rewrite He. reflexivity.
  - intros He. rewrite generate_run. cbv zeta. now rewrite He.
Qed.

End Outcomes.

(** ** More on [strip] *)



Lemma drop_whitespace_suffix (fwd : bool) (fuel : nat) :
  forall l, exists dropped, l = (dropped ++ drop_whitespace fwd fuel l)%list.
Proof.
  induction fuel as [|fuel IH]; intros l; cbn [drop_whitespace].
  - exists []. reflexivity.
  - destruct (whitespace_at fwd l) as [|n] eqn:Hn.
    + exists []. reflexivity.
    + destruct (IH (skipn (S n) l)) as [dropped Hd].
      exists (firstn (S n) l ++ dropped)%list.
      rewrite <- app_assoc, <- Hd. symmetry. apply firstn_skipn.
Qed.
















(** ** The further properties on the sample runs *)

Ltac sample_body :=
  eexists; split; [reflexivity | split; [simpl; lia | reflexivity]].

Lemma bad_body_aborts_sample :
  digest sample_str acme_list_body = Returned EmptyString
  /\ app sample_str acme_list_body
     = ((page_events
           ++ [StSpinner "🔍 Searching the web for company details...";
               search_event acme_list_body "Acme" "Engineer";
               StError "⚠️ Error fetching company info: 'list' object has no attribute 'get'";
               StWarning "No data found to generate guide."])%list,
        Stopped).
Proof.
  apply (bad_body_aborts sample_str acme_list_body (inr (PList []))).
  - sample_request.
  - sample_body.
  - intros H. exact H.
Defined.

Lemma falsy_results_give_sentinel_sample :
  search_company_info sample_str (serper_key acme_null_results)
    "Acme" "Engineer" acme_null_results
  = ([search_event acme_null_results "Acme" "Engineer"],
     Returned "No relevant info found.").
Proof.
  apply (falsy_results_give_sentinel sample_str acme_null_results
           "Acme" "Engineer" [("organic", PNone)] PNone).
  - sample_body.
  - reflexivity.
  - reflexivity.
Defined.

Lemma unreadable_results_raise_sample :
  exists e,
    search_company_info sample_str (serper_key acme_string_result)
      "Acme" "Engineer" acme_string_result
    = ([search_event acme_string_result "Acme" "Engineer"], Raised e)
    /\ (request acme_string_result ->
        app sample_str acme_string_result
        = ((page_events
              ++ [StSpinner "🔍 Searching the web for company details...";
                  search_event acme_string_result "Acme" "Engineer"])%list,
           Raised e)).
Proof.
  apply (unreadable_results_raise sample_str acme_string_result
           [("organic",
             PList [hit "Acme careers" "https://acme.example/jobs" "Open roles";
                    PStr "advert"])]
           (PList [hit "Acme careers" "https://acme.example/jobs" "Open roles";
                   PStr "advert"])).
  - sample_body.
  - reflexivity.
  - split; [reflexivity |]. simpl. apply Exists_cons_tl, Exists_cons_hd.
    intros H. exact H.
Defined.

Lemma empty_digest_means_error_sample :
  filter is_error
    (trace (search_company_info sample_str (serper_key acme_unreachable)
              "Acme" "Engineer") acme_unreachable)
  <> [].
Proof.
  apply (proj1 (empty_digest_means_error sample_str acme_unreachable
                  "Acme" "Engineer")).
  reflexivity.
Defined.

Lemma digest_forms_sample :
  acme_digest = EmptyString
  \/ acme_digest = "No relevant info found."
  \/ exists items,
       (1 <= List.length items <= 6)%nat
       /\ Forall is_object items
       /\ acme_digest = String.concat nl (map (bullet_line sample_str) items).
Proof.
  apply (digest_forms sample_str acme_found "Acme" "Engineer" acme_digest).
  reflexivity.
Defined.

Lemma no_results_still_generates_sample :
  let prompt := build_prompt "Acme" "Engineer" "No relevant info found." in
  In (StMarkdown "No relevant info found.")
     (trace (app sample_str) acme_null_results)
  /\ filter is_completion (trace (app sample_str) acme_null_results)
     = [completion_event acme_null_results prompt]
  /\ Substring "No relevant info found." prompt.
Proof.
  apply (no_results_still_generates sample_str acme_null_results
           [("organic", PNone)]).
  - sample_request.
  - sample_body.
  - right. exists PNone. split; reflexivity.
Defined.

Lemma malformed_completion_is_failure_sample :
  generate_interview_guide (groq_key acme_no_choices)
    "Acme" "Engineer" acme_digest acme_no_choices
  = ([completion_event acme_no_choices
        (build_prompt "Acme" "Engineer" acme_digest);
      StError "⚠️ Error generating guide: list index out of range"],
     Returned EmptyString).
Proof.
  apply (malformed_completion_is_failure acme_no_choices
           "Acme" "Engineer" acme_digest (ChatCompletion [])).
  - reflexivity.
  - exact I.
Defined.

Lemma digest_shown_before_generation_sample :
  exists before after,
    trace (app sample_str) acme_no_guide
    = (before
         ++ [StSubheader "🌐 Web Insights"; StMarkdown acme_digest;
             StSpinner "🧠 Generating your AI-based interview preparation guide...";
             completion_event acme_no_guide
               (build_prompt "Acme" "Engineer" acme_digest)]
         ++ after)%list
    /\ filter is_completion before = []
    /\ filter is_guide_output before = [].
Proof.
  apply (digest_shown_before_generation sample_str acme_no_guide acme_digest).
  - sample_request.
  - reflexivity.
  - discriminate.
Defined.


Lemma empty_digest_warns_sample :
  app sample_str acme_unreachable
  = ((page_events
        ++ [StSpinner "🔍 Searching the web for company details..."]
        ++ trace (search_company_info sample_str (serper_key acme_unreachable)
                    "Acme" "Engineer") acme_unreachable
        ++ [StWarning "No data found to generate guide."])%list,
     Stopped)
  /\ ~ In (StSubheader "🌐 Web Insights") (trace (app sample_str) acme_unreachable).
Proof.
  apply (empty_digest_warns sample_str acme_unreachable).
  - sample_request.
  - reflexivity.
Defined.

Lemma errors_are_shown_raw_sample :
  search_company_info sample_str (serper_key acme_unreachable)
    "Acme" "Engineer" acme_unreachable
  = ([search_event acme_unreachable "Acme" "Engineer";
      StError "⚠️ Error fetching company info: Connection refused"],
     Returned EmptyString).
Proof.
  apply (proj1 (errors_are_shown_raw sample_str acme_unreachable
                  "Acme" "Engineer" EmptyString
                  (Exn "ConnectionError" "Connection refused"))).
  reflexivity.
Defined.

